(** * term: POSIX terminal handles (term.go)

    A shallow embedding of package [term]: the [Term] handle with its
    [Open], [Read], [Write] and [Close] operations, the line-control
    operations built on package [termios], and the [Status] bit accessors.

    Calls that leave the package (package [syscall], package [termios]) are
    the nodes of a finite program tree; an operating system is a handler that
    answers each call, so every property below is proved for every possible
    answer of the operating system. *)

From Stdlib Require Import ZArith List String Bool Lia.
From Stdlib Require Import Strings.Byte.
Import ListNotations.
Local Open Scope string_scope.
Local Open Scope Z_scope.

(** ** Go's fixed-width integers *)

Module Go.

(** [int] is the 64-bit signed integer of the platforms the package is
    built for. *)
Definition in_int (z : Z) : Prop := - 2 ^ 63 <= z < 2 ^ 63.

(** [uintptr(x)] for an [int] x: the same 64 bits read as unsigned. *)
Definition uintptr (z : Z) : Z := z mod 2 ^ 64.

(** [len(b)] as an [int]. *)
Definition len {A : Type} (b : list A) : Z := Z.of_nat (List.length b).

End Go.

(** ** Errors

    A Go [error] is an interface value; [nil] is [None] of [option error].
    The dynamic values the package can meet or build are the two sentinels
    of package [io], the error numbers of package [syscall] and the
    [*os.PathError] wrapper. *)

Inductive error : Type :=
| io_EOF
| io_ErrShortWrite
| Errno (code : Z)
| PathError (Op Path : string) (Err : error).

(** [e == nil] *)
Definition is_nil (e : option error) : bool :=
  match e with
  | None => true
  | Some _ => false
  end.

(** ** Constants and types of package [syscall] (linux/amd64) *)

Module syscall.

Definition O_RDWR : Z := 0x2.
Definition O_NOCTTY : Z := 0x100.
Definition O_CLOEXEC : Z := 0x80000.
Definition TIOCM_DTR : Z := 0x2.

Definition EIO : Z := 5.
Definition EBADF : Z := 9.
Definition ENOTTY : Z := 25.

(** The fields of [Termios]; the padding bytes of the struct are left
    out. *)
Record Termios : Type := {
  Iflag : Z;
  Oflag : Z;
  Cflag : Z;
  Lflag : Z;
  Line : Z;
  Cc : list Z;
  Ispeed : Z;
  Ospeed : Z
}.

End syscall.

(** ** Constants of package [termios] *)

Module termios.

Definition TCSANOW : Z := 0.
Definition TCIOFLUSH : Z := 2.

End termios.

(** ** Status: the modem status bits

    [type Status int]; the methods have a pointer receiver, so each returns
    the value the receiver holds afterwards. *)

Definition Status : Type := Z.

Definition SetDTR (s : Status) (v : bool) : Status :=
  if v then Z.lor s syscall.TIOCM_DTR
  else Z.land s (Z.lnot syscall.TIOCM_DTR).

Definition DTR (s : Status) : bool :=
  Z.land s syscall.TIOCM_DTR =? syscall.TIOCM_DTR.

(** ** Calls that leave the package

    Each constructor is one function of package [syscall] or package
    [termios], with the arguments the caller passes and, as index, what the
    call hands back.  A slice or pointer argument that the callee may write
    through is passed as its contents before the call and handed back as its
    contents after the call. *)

Inductive call : Type -> Type :=
| syscall_Open (path : string) (mode : Z) (perm : Z) : call (Z * option error)
| syscall_Read (fd : Z) (p : list byte) : call (Z * option error * list byte)
| syscall_Write (fd : Z) (p : list byte) : call (Z * option error)
| syscall_Close (fd : Z) : call (option error)
| termios_Tcgetattr (fd : Z) (argp : syscall.Termios)
  : call (option error * syscall.Termios)
| termios_Tcsetattr (fd : Z) (opt : Z) (argp : syscall.Termios)
  : call (option error)
| termios_Tcflush (fd : Z) (which : Z) : call (option error)
| termios_Tcsendbreak (fd : Z) (duration : Z) : call (option error)
| termios_Tiocmget (fd : Z) (status : Z) : call (option error * Z)
| termios_Tiocmset (fd : Z) (status : Z) : call (option error).

(** A call with its result type packed, for traces. *)
Inductive event : Type :=
| Ev (R : Type) (c : call R).

Arguments Ev {R} c.

(** ** Programs: finite trees of calls *)

Inductive prog (A : Type) : Type :=
| Ret (a : A)
| Do (R : Type) (c : call R) (k : R -> prog A).

Arguments Ret {A} a.
Arguments Do {A R} c k.

Fixpoint bind {A B : Type} (m : prog A) (f : A -> prog B) : prog B :=
  match m with
  | Ret a => f a
  | Do c k => Do c (fun r => bind (k r) f)
  end.

Definition perform {R : Type} (c : call R) : prog R := Do c Ret.

Notation "x <- m ;; k" := (bind m (fun x => k))
  (at level 61, m at next level, right associativity).
Notation "' pat <- m ;; k" := (bind m (fun x => match x with pat => k end))
  (at level 61, pat pattern, m at next level, right associativity).

(** An operating system over worlds [W] answers every call and moves to a
    next world. *)
Definition OS (W : Type) : Type := forall R : Type, call R -> W -> R * W.

Fixpoint run {W A : Type} (os : OS W) (m : prog A) (w : W) : A * W :=
  match m with
  | Ret a => (a, w)
  | Do c k => let (r, w') := os _ c w in run os (k r) w'
  end.

(** The calls a program makes, in order. *)
Fixpoint trace {W A : Type} (os : OS W) (m : prog A) (w : W) : list event :=
  match m with
  | Ret _ => []
  | Do c k => let (r, w') := os _ c w in Ev c :: trace os (k r) w'
  end.

(** What the operating system answers to one call. *)
Definition answer {W R : Type} (os : OS W) (c : call R) (w : W) : R :=
  fst (os _ c w).

(** ** Term: an asynchronous communications port *)

Record Term : Type := {
  name : string;
  fd : Z
}.

(** [Open]: the handle is a pointer, [nil] on failure. *)
Definition Open (name : string) : prog (option Term * option error) :=
  '(fd, e) <- perform (syscall_Open name
                (Z.lor (Z.lor syscall.O_NOCTTY syscall.O_CLOEXEC) syscall.O_RDWR)
                438 (* 0666 *)) ;;
  match e with
  | Some e => Ret (None, Some (PathError "open" name e))
  | None => Ret (Some {| name := name; fd := fd |}, None)
  end.

(** [Read] returns the count and the error; the contents of [b] after the
    call come with them. *)
Definition Read (t : Term) (b : list byte)
  : prog ((Z * option error) * list byte) :=
  '(n, e, b') <- perform (syscall_Read (fd t) b) ;;
  let n := if n <? 0 then 0 else n in
  if (n =? 0) && (Go.len b >? 0) && is_nil e then
    Ret ((0, Some io_EOF), b')
  else
    match e with
    | Some e => Ret ((n, Some (PathError "read" (name t) e)), b')
    | None => Ret ((n, None), b')
    end.

Definition Write (t : Term) (b : list byte) : prog (Z * option error) :=
  '(n, e) <- perform (syscall_Write (fd t) b) ;;
  let n := if n <? 0 then 0 else n in
  if negb (n =? Go.len b) then
    Ret (n, Some io_ErrShortWrite)
  else
    match e with
    | Some e => Ret (n, Some (PathError "write" (name t) e))
    | None => Ret (n, None)
    end.

(** [Close] returns the error and the handle as the receiver holds it
    afterwards. *)
Definition Close (t : Term) : prog (option error * Term) :=
  err <- perform (syscall_Close (fd t)) ;;
  let t := {| name := name t; fd := -1 |} in
  Ret (err, t).

(** [type attr]: the source converts [*attr] to [*syscall.Termios], so the
    two types have the same underlying struct. *)
Definition attr : Type := syscall.Termios.

(** [var a attr]: the zero value. *)
Definition attr_zero : attr :=
  {| syscall.Iflag := 0; syscall.Oflag := 0; syscall.Cflag := 0;
     syscall.Lflag := 0; syscall.Line := 0; syscall.Cc := repeat 0 32;
     syscall.Ispeed := 0; syscall.Ospeed := 0 |}.

Section LineControl.

(** The method [setSpeed] of [attr] is declared in a platform file of the
    package; here it is any function from the attributes and the baud rate
    to the attributes afterwards.  [SetSpeed] calls it as a statement, so
    nothing else it may return reaches [SetSpeed]. *)
Variable setSpeed : attr -> Z -> attr.

Definition SetSpeed (t : Term) (baud : Z) : prog (option error) :=
  let a := attr_zero in
  '(err, a) <- perform (termios_Tcgetattr (Go.uintptr (fd t)) a) ;;
  match err with
  | Some err => Ret (Some err)
  | None =>
      let a := setSpeed a baud in
      perform (termios_Tcsetattr (Go.uintptr (fd t)) termios.TCSANOW a)
  end.

End LineControl.

Definition Flush (t : Term) : prog (option error) :=
  perform (termios_Tcflush (Go.uintptr (fd t)) termios.TCIOFLUSH).

Definition SendBreak (t : Term) : prog (option error) :=
  perform (termios_Tcsendbreak (Go.uintptr (fd t)) 0).

(** The method [Status] of [Term]; the plain name is the type's. *)
Definition Term_Status (t : Term) : prog (Status * option error) :=
  let status := 0 in
  '(err, status) <- perform (termios_Tiocmget (Go.uintptr (fd t)) status) ;;
  match err with
  | Some err => Ret (0, Some err)
  | None => Ret (status, None)
  end.

Definition SetStatus (t : Term) (status : Status) : prog (option error) :=
  perform (termios_Tiocmset (Go.uintptr (fd t)) status).

(** ** Concrete operating systems

    A scripted operating system gives one fixed answer per kind of call and
    counts the calls it has answered. *)

Record script : Type := {
  on_open : Z * option error;
  on_read : Z * option error;
  on_write : Z * option error;
  on_close : option error;
  on_tcgetattr : option error * attr;
  on_tcsetattr : option error;
  on_tcflush : option error;
  on_tcsendbreak : option error;
  on_tiocmget : option error * Z;
  on_tiocmset : option error
}.

Definition scripted (s : script) : OS nat :=
  fun R c w =>
    (match c in call R return R with
     | syscall_Open _ _ _ => on_open s
     | syscall_Read _ p => (on_read s, p)
     | syscall_Write _ _ => on_write s
     | syscall_Close _ => on_close s
     | termios_Tcgetattr _ _ => on_tcgetattr s
     | termios_Tcsetattr _ _ _ => on_tcsetattr s
     | termios_Tcflush _ _ => on_tcflush s
     | termios_Tcsendbreak _ _ => on_tcsendbreak s
     | termios_Tiocmget _ _ => on_tiocmget s
     | termios_Tiocmset _ _ => on_tiocmset s
     end, S w).

(** Every call succeeds; reads and writes move five bytes. *)
Definition os_healthy : OS nat :=
  scripted {|
    on_open := (3, None);
    on_read := (5, None);
    on_write := (5, None);
    on_close := None;
    on_tcgetattr := (None, attr_zero);
    on_tcsetattr := None;
    on_tcflush := None;
    on_tcsendbreak := None;
    on_tiocmget := (None, 6);
    on_tiocmset := None
  |}.

(** Every call fails the way it does on a descriptor that is not open:
    result [-1] and [EBADF]. *)
Definition os_badfd : OS nat :=
  let ebadf := Some (Errno syscall.EBADF) in
  scripted {|
    on_open := (-1, ebadf);
    on_read := (-1, ebadf);
    on_write := (-1, ebadf);
    on_close := ebadf;
    on_tcgetattr := (ebadf, attr_zero);
    on_tcsetattr := ebadf;
    on_tcflush := ebadf;
    on_tcsendbreak := ebadf;
    on_tiocmget := (ebadf, 0);
    on_tiocmset := ebadf
  |}.

(** Reads and writes move two bytes and report [EIO] with them. *)
Definition os_partial : OS nat :=
  let eio := Some (Errno syscall.EIO) in
  scripted {|
    on_open := (3, None);
    on_read := (2, eio);
    on_write := (2, eio);
    on_close := None;
    on_tcgetattr := (None, attr_zero);
    on_tcsetattr := None;
    on_tcflush := None;
    on_tcsendbreak := None;
    on_tiocmget := (None, 0);
    on_tiocmset := None
  |}.

(** The stream is at its end: reads and writes move nothing and report no
    error. *)
Definition os_at_eof : OS nat :=
  scripted {|
    on_open := (3, None);
    on_read := (0, None);
    on_write := (0, None);
    on_close := None;
    on_tcgetattr := (None, attr_zero);
    on_tcsetattr := None;
    on_tcflush := None;
    on_tcsendbreak := None;
    on_tiocmget := (None, 0);
    on_tiocmset := None
  |}.

(** Reads and writes move all five bytes and still report [EIO]. *)
Definition os_late_error : OS nat :=
  let eio := Some (Errno syscall.EIO) in
  scripted {|
    on_open := (3, None);
    on_read := (5, eio);
    on_write := (5, eio);
    on_close := eio;
    on_tcgetattr := (None, attr_zero);
    on_tcsetattr := eio;
    on_tcflush := None;
    on_tcsendbreak := None;
    on_tiocmget := (None, 0);
    on_tiocmset := None
  |}.

Definition ttyS0 : string := "/dev/ttyS0".

(** An open handle and a closed one. *)
Definition tty : Term := {| name := ttyS0; fd := 3 |}.
Definition tty_closed : Term := {| name := ttyS0; fd := -1 |}.

Definition hello : list byte := [x68; x65; x6c; x6c; x6f].

(** Modelled from the spec: the platform file that declares [setSpeed] is
    not among the sources; the spec says of it that it "mutates the speed
    fields to the requested baud rate".  The results on [SetSpeed] below
    hold for every [setSpeed]; this one only instantiates them. *)
Definition setSpeed_fields (a : attr) (baud : Z) : attr :=
  {| syscall.Iflag := syscall.Iflag a; syscall.Oflag := syscall.Oflag a;
     syscall.Cflag := syscall.Cflag a; syscall.Lflag := syscall.Lflag a;
     syscall.Line := syscall.Line a; syscall.Cc := syscall.Cc a;
     syscall.Ispeed := baud mod 2 ^ 32; syscall.Ospeed := baud mod 2 ^ 32 |}.

(** ** What it means for an error to carry its context *)

(** The error names the operation, the path and the cause: it is the
    [PathError] built from them. *)
Definition carries (err : error) (op path : string) (cause : error) : Prop :=
  err = PathError op path cause.

(** The error names no operation and no path. *)
Definition bare (err : error) : Prop :=
  forall (op path : string) (cause : error), err <> PathError op path cause.

(** The reading of the short-write rule on the count as the operating system
    returned it, before [Write] replaces a negative count by zero. *)
Definition short_write_on_os_count : Prop :=
  forall (W : Type) (os : OS W) (t : Term) (b : list byte) (w : W)
         (n : Z) (e : option error),
    answer os (syscall_Write (fd t) b) w = (n, e) ->
    n <> Go.len b ->
    snd (fst (run os (Write t b) w)) = Some io_ErrShortWrite.

(** Every failing operation wraps its error with its own name and the
    path. *)
Definition every_error_carries_context : Prop :=
  forall (W : Type) (os : OS W) (t : Term) (w : W) (err : error),
    (fst (fst (run os (Close t) w)) = Some err ->
     exists cause, carries err "close" (name t) cause)
    /\ (fst (run os (Flush t) w) = Some err ->
        exists op cause, carries err op (name t) cause).


(** *** Bit-level facts about the accessors *)

Lemma TIOCM_DTR_bits (i : Z) :
  Z.testbit syscall.TIOCM_DTR i = (i =? 1).
Proof.
  unfold syscall.TIOCM_DTR.
  change 2 with (2 ^ 1).
  destruct (Z.eqb_spec i 1) as [-> | Hne].
  - apply Z.pow2_bits_true; lia.
  - apply Z.pow2_bits_false; lia.
Qed.

Lemma SetDTR_testbit (s : Status) (v : bool) (i : Z) :
  Z.testbit (SetDTR s v) i
  = if i =? 1 then v else Z.testbit s i.
Proof.
  destruct (Z.neg_nonneg_cases i) as [Hneg | Hpos].
  - rewrite !Z.testbit_neg_r by assumption.
    destruct (Z.eqb_spec i 1); [lia | reflexivity].
  - unfold SetDTR. destruct v.
    + rewrite Z.lor_spec, TIOCM_DTR_bits.
      destruct (i =? 1); [apply orb_true_r | apply orb_false_r].
    + rewrite Z.land_spec, Z.lnot_spec, TIOCM_DTR_bits by assumption.
      destruct (i =? 1); [apply andb_false_r | apply andb_true_r].
Qed.

Lemma DTR_testbit (s : Status) : DTR s = Z.testbit s 1.
Proof.
  unfold DTR.
  destruct (Z.testbit s 1) eqn:Hb.
  - apply Z.eqb_eq. apply Z.bits_inj'. intros i Hi.
    rewrite Z.land_spec, TIOCM_DTR_bits.
    destruct (Z.eqb_spec i 1) as [-> | _];
      [rewrite Hb; reflexivity | apply andb_false_r].
  - apply Z.eqb_neq. intros Heq.
    assert (Hbit : Z.testbit (Z.land s syscall.TIOCM_DTR) 1 = true)
      by (rewrite Heq; apply TIOCM_DTR_bits).
    rewrite Z.land_spec, Hb in Hbit. discriminate.
Qed.

(** An [int] is a value whose bits from position 63 upwards all equal its
    sign. *)
Lemma in_int_shiftr (z : Z) :
  Go.in_int z <-> Z.shiftr z 63 = 0 \/ Z.shiftr z 63 = -1.
Proof.
  unfold Go.in_int. rewrite Z.shiftr_div_pow2 by lia.
  pose proof (Z.div_mod z (2 ^ 63) ltac:(lia)) as Hdm.
  pose proof (Z.mod_pos_bound z (2 ^ 63) ltac:(lia)) as Hr.
  lia.
Qed.

(** X16: [SetDTR] keeps a status inside the range of [int]: the bit
    operations never wrap around, for either value of [v]. *)
Lemma SetDTR_in_int (s : Status) (v : bool) :
  Go.in_int s -> Go.in_int (SetDTR s v).
Proof.
  rewrite !in_int_shiftr. unfold SetDTR.
  destruct v.
  - rewrite Z.shiftr_lor.
    change (Z.shiftr syscall.TIOCM_DTR 63) with 0.
    rewrite Z.lor_0_r. trivial.
  - rewrite Z.shiftr_land.
    change (Z.shiftr (Z.lnot syscall.TIOCM_DTR) 63) with (-1).
    rewrite Z.land_m1_r. trivial.
Qed.

(** ** Running the operations *)

(** Name the answer of the operating system to the call under focus. *)
Ltac ask os c w :=
  let r := fresh "r" in
  let w' := fresh "w'" in
  let Hos := fresh "Hos" in
  destruct (os _ c w) as [r w'] eqn:Hos.

Ltac ask_goal :=
  match goal with
  | |- context [?os _ ?c ?w] => is_var os; ask os c w
  end.

Lemma clamp_max (n : Z) : (if n <? 0 then 0 else n) = Z.max 0 n.
Proof. destruct (Z.ltb_spec n 0); lia. Qed.

Lemma run_Read (W : Type) (os : OS W) (t : Term) (b : list byte) (w : W)
      (n : Z) (e : option error) (b' : list byte) :
  answer os (syscall_Read (fd t) b) w = (n, e, b') ->
  fst (run os (Read t b) w)
  = if (Z.max 0 n =? 0) && (Go.len b >? 0) && is_nil e
    then ((0, Some io_EOF), b')
    else ((Z.max 0 n, option_map (PathError "read" (name t)) e), b').
Proof.
  unfold answer, Read. simpl. ask_goal. simpl. intros ->.
  rewrite clamp_max.
  destruct ((Z.max 0 n =? 0) && (Go.len b >? 0) && is_nil e);
    [reflexivity | destruct e; reflexivity].
Qed.

Lemma run_Write (W : Type) (os : OS W) (t : Term) (b : list byte) (w : W)
      (n : Z) (e : option error) :
  answer os (syscall_Write (fd t) b) w = (n, e) ->
  fst (run os (Write t b) w)
  = if Z.max 0 n =? Go.len b
    then (Z.max 0 n, option_map (PathError "write" (name t)) e)
    else (Z.max 0 n, Some io_ErrShortWrite).
Proof.
  unfold answer, Write. simpl. ask_goal. simpl. intros ->.
  rewrite clamp_max.
  destruct (Z.max 0 n =? Go.len b); simpl;
    [destruct e; reflexivity | reflexivity].
Qed.

(** ** Write: the short-write rule *)

(** C1, as worded, fails: on a handle that is not open, [Write] of an empty
    buffer gets count [-1] with [EBADF] from the operating system; [-1]
    differs from [len(b) = 0], yet [Write] returns count [0] and the wrapped
    [EBADF], not the short-write error. *)
Lemma Write_os_count_counterexample :
  answer os_badfd (syscall_Write (fd tty_closed) []) 0%nat
  = (-1, Some (Errno syscall.EBADF))
  /\ -1 <> Go.len (@nil byte)
  /\ fst (run os_badfd (Write tty_closed []) 0%nat)
     = (0, Some (PathError "write" ttyS0 (Errno syscall.EBADF)))
  /\ ~ short_write_on_os_count.
Proof.
  repeat split; try discriminate.
  intros Hclaim.
  assert (Hshort : -1 <> Go.len (@nil byte)) by discriminate.
  pose proof (Hclaim nat os_badfd tty_closed [] 0%nat (-1)
                     (Some (Errno syscall.EBADF)) eq_refl Hshort) as Hres.
  discriminate Hres.
Qed.

(** C1 (amended): for every buffer [b] and every answer [(n, e)] of the
    operating system's write, if the count after a negative count is
    replaced by zero differs from [len(b)], [Write] returns that count and
    the short-write error whatever [e] is, so an error of the operating
    system that comes with a short write is dropped; and [Write] returns the
    short-write error in no other case. *)
Theorem Write_short_write_first (W : Type) (os : OS W) (t : Term)
        (b : list byte) (w : W) (n : Z) (e : option error) :
  answer os (syscall_Write (fd t) b) w = (n, e) ->
  (Z.max 0 n <> Go.len b ->
   fst (run os (Write t b) w) = (Z.max 0 n, Some io_ErrShortWrite))
  /\ (snd (fst (run os (Write t b) w)) = Some io_ErrShortWrite
      <-> Z.max 0 n <> Go.len b).
Proof.
  intros Hos. rewrite (run_Write _ _ _ _ _ _ _ Hos).
  destruct (Z.eqb_spec (Z.max 0 n) (Go.len b)) as [Heq | Hne]; split.
  - intros Hne. contradiction.
  - simpl. split; [| intros Hne; contradiction].
    destruct e; simpl; discriminate.
  - reflexivity.
  - simpl. split; [intros _; exact Hne | reflexivity].
Qed.

(** A write of five bytes that moves two and reports [EIO]: only the short
    write is reported. *)
Lemma Write_short_write_first_witness :
  fst (run os_partial (Write tty hello) 0%nat) = (2, Some io_ErrShortWrite).
Proof.
  apply (proj1 (Write_short_write_first nat os_partial tty hello 0%nat 2
                  (Some (Errno syscall.EIO)) eq_refl)).
  vm_compute. discriminate.
Defined.

(** ** Read: end of stream, counts and errors *)

(** C2: [Read] returns [io.EOF] exactly when no byte was read (the count,
    once a negative count is replaced by zero, is zero), the buffer is not
    empty and the operating system reported no error.  Whenever the answer
    of the operating system is one a read can give (a negative count comes
    only with an error) this is: the count is zero, the buffer is not empty
    and there is no error.  With an empty buffer [Read] never returns
    [io.EOF]. *)
Theorem Read_EOF_iff (W : Type) (os : OS W) (t : Term) (b : list byte)
        (w : W) (n : Z) (e : option error) (b' : list byte) :
  answer os (syscall_Read (fd t) b) w = (n, e, b') ->
  (snd (fst (fst (run os (Read t b) w))) = Some io_EOF
   <-> Z.max 0 n = 0 /\ 0 < Go.len b /\ e = None)
  /\ ((n < 0 -> e <> None) ->
      (snd (fst (fst (run os (Read t b) w))) = Some io_EOF
       <-> n = 0 /\ 0 < Go.len b /\ e = None))
  /\ (b = [] -> snd (fst (fst (run os (Read t b) w))) <> Some io_EOF).
Proof.
  intros Hos. rewrite (run_Read _ _ _ _ _ _ _ _ Hos).
  assert (Hexact :
    snd (fst (if (Z.max 0 n =? 0) && (Go.len b >? 0) && is_nil e
              then ((0, Some io_EOF), b')
              else ((Z.max 0 n, option_map (PathError "read" (name t)) e), b')))
    = Some io_EOF
    <-> Z.max 0 n = 0 /\ 0 < Go.len b /\ e = None).
  { destruct (Z.eqb_spec (Z.max 0 n) 0) as [Hn | Hn];
      destruct (Z.gtb_spec (Go.len b) 0) as [Hl | Hl];
      destruct e as [e |]; simpl; split;
      try discriminate; try (intros (? & ? & ?); try discriminate; lia);
      try (intros _; repeat split; lia). }
  split; [exact Hexact |]. split.
  - intros Hposix. rewrite Hexact. split.
    + intros (Hn & Hl & He). repeat split; try assumption.
      destruct (Z_lt_le_dec n 0) as [Hneg | Hpos]; [| lia].
      exfalso. exact (Hposix Hneg He).
    + intros (Hn & Hl & He). repeat split; try assumption. lia.
  - intros -> Heof. apply Hexact in Heof.
    destruct Heof as (_ & Hl & _). unfold Go.len in Hl. simpl in Hl. lia.
Qed.

(** A read into a five-byte buffer at the end of the stream. *)
Lemma Read_EOF_iff_witness :
  snd (fst (fst (run os_at_eof (Read tty hello) 0%nat))) = Some io_EOF.
Proof.
  apply (proj1 (Read_EOF_iff nat os_at_eof tty hello 0%nat 0 None hello
                  eq_refl)).
  vm_compute. repeat split.
Defined.

(** C8: the count [Read] returns and the count [Write] returns are the
    count of the operating system with a negative count replaced by zero:
    never negative, and zero whenever the operating system's count is
    negative. *)
Theorem count_never_negative (W : Type) (os : OS W) (t : Term)
        (b : list byte) (w : W) :
  let n_read := fst (fst (answer os (syscall_Read (fd t) b) w)) in
  let n_write := fst (answer os (syscall_Write (fd t) b) w) in
  let read_count := fst (fst (fst (run os (Read t b) w))) in
  let write_count := fst (fst (run os (Write t b) w)) in
  (read_count = Z.max 0 n_read /\ write_count = Z.max 0 n_write)
  /\ (0 <= read_count /\ 0 <= write_count)
  /\ ((n_read < 0 -> read_count = 0) /\ (n_write < 0 -> write_count = 0)).
Proof.
  assert (Hr : fst (fst (fst (run os (Read t b) w)))
               = Z.max 0 (fst (fst (answer os (syscall_Read (fd t) b) w)))).
  { destruct (answer os (syscall_Read (fd t) b) w) as [[n e] b'] eqn:Hos.
    rewrite (run_Read _ _ _ _ _ _ _ _ Hos). simpl.
    destruct (Z.eqb_spec (Z.max 0 n) 0) as [Hn | Hn]; simpl;
      [| reflexivity].
    destruct ((Go.len b >? 0) && is_nil e); simpl; congruence. }
  assert (Hw : fst (fst (run os (Write t b) w))
               = Z.max 0 (fst (answer os (syscall_Write (fd t) b) w))).
  { destruct (answer os (syscall_Write (fd t) b) w) as [n e] eqn:Hos.
    rewrite (run_Write _ _ _ _ _ _ _ Hos). simpl.
    destruct (Z.max 0 n =? Go.len b); reflexivity. }
  cbv zeta. rewrite Hr, Hw. lia.
Qed.

(** C9: when the operating system's read answers a positive count together
    with an error, [Read] returns that same count and the error wrapped
    with the operation ["read"] and the path. *)
Theorem Read_partial_with_error (W : Type) (os : OS W) (t : Term)
        (b : list byte) (w : W) (n : Z) (e : error) (b' : list byte) :
  answer os (syscall_Read (fd t) b) w = (n, Some e, b') ->
  0 < n ->
  fst (run os (Read t b) w)
  = ((n, Some (PathError "read" (name t) e)), b').
Proof.
  intros Hos Hn. rewrite (run_Read _ _ _ _ _ _ _ _ Hos).
  rewrite andb_false_r. simpl. rewrite Z.max_r by lia. reflexivity.
Qed.

(** A read that moves two bytes and reports [EIO]. *)
Lemma Read_partial_with_error_witness :
  fst (run os_partial (Read tty hello) 0%nat)
  = ((2, Some (PathError "read" ttyS0 (Errno syscall.EIO))), hello).
Proof.
  apply (Read_partial_with_error nat os_partial tty hello 0%nat 2
           (Errno syscall.EIO) hello eq_refl).
  lia.
Defined.

(** ** Open and Close *)

(** The mode [Open] passes has three bits: bit 1 ([O_RDWR]), bit 8
    ([O_NOCTTY]) and bit 19 ([O_CLOEXEC]). *)
Lemma Open_mode_bits (i : Z) :
  Z.testbit (Z.lor (Z.lor syscall.O_NOCTTY syscall.O_CLOEXEC) syscall.O_RDWR) i
  = true
  <-> i = 1 \/ i = 8 \/ i = 19.
Proof.
  change (Z.lor (Z.lor syscall.O_NOCTTY syscall.O_CLOEXEC) syscall.O_RDWR)
    with 0x80102.
  split.
  - intros Hb.
    destruct (Z_lt_le_dec i 0) as [Hneg | Hpos];
      [rewrite Z.testbit_neg_r in Hb by assumption; discriminate |].
    destruct (Z_lt_le_dec 19 i) as [Hbig | Hsmall].
    + rewrite Z.bits_above_log2 in Hb; [discriminate | lia |].
      change (Z.log2 0x80102) with 19. exact Hbig.
    + assert (Hi : i = 0 \/ i = 1 \/ i = 2 \/ i = 3 \/ i = 4 \/ i = 5 \/ i = 6
                   \/ i = 7 \/ i = 8 \/ i = 9 \/ i = 10 \/ i = 11 \/ i = 12
                   \/ i = 13 \/ i = 14 \/ i = 15 \/ i = 16 \/ i = 17
                   \/ i = 18 \/ i = 19) by lia.
      repeat (destruct Hi as [-> | Hi]; [first [discriminate Hb | lia] |]).
      lia.
  - intros [-> | [-> | ->]]; reflexivity.
Qed.

(** C7: [Open] makes one call, the operating system's open with the path,
    the mode [O_NOCTTY|O_CLOEXEC|O_RDWR] (the bits of these three flags and
    no other) and permission 0666; when that call reports an error, [Open]
    returns no handle and the error wrapped with the operation ["open"] and
    the path. *)
Theorem Open_flags_and_failure (W : Type) (os : OS W) (path : string) (w : W) :
  let mode := Z.lor (Z.lor syscall.O_NOCTTY syscall.O_CLOEXEC) syscall.O_RDWR in
  trace os (Open path) w = [Ev (syscall_Open path mode 438)]
  /\ (forall i, Z.testbit mode i = true
                <-> Z.testbit syscall.O_NOCTTY i = true
                    \/ Z.testbit syscall.O_CLOEXEC i = true
                    \/ Z.testbit syscall.O_RDWR i = true)
  /\ (forall i, Z.testbit mode i = true <-> i = 1 \/ i = 8 \/ i = 19)
  /\ (forall (fd' : Z) (e : error),
        answer os (syscall_Open path mode 438) w = (fd', Some e) ->
        fst (run os (Open path) w)
        = (None, Some (PathError "open" path e)))
  /\ (forall fd' : Z,
        answer os (syscall_Open path mode 438) w = (fd', None) ->
        fst (run os (Open path) w)
        = (Some {| name := path; fd := fd' |}, None)).
Proof.
  cbv zeta. split; [| split; [| split; [| split]]].
  - unfold Open. simpl. ask_goal. destruct r as [fd' [e |]]; reflexivity.
  - intros i. rewrite !Z.lor_spec, !orb_true_iff. tauto.
  - exact Open_mode_bits.
  - intros fd' e. unfold answer, Open. simpl. ask_goal. simpl.
    intros ->. reflexivity.
  - intros fd'. unfold answer, Open. simpl. ask_goal. simpl.
    intros ->. reflexivity.
Qed.

(** C3: after [Close] the descriptor of the handle is [-1], whatever the
    operating system's close answers; the answer itself is what [Close]
    returns, and the path is kept. *)
Theorem Close_invalidates_fd (W : Type) (os : OS W) (t : Term) (w : W) :
  fd (snd (fst (run os (Close t) w))) = -1
  /\ name (snd (fst (run os (Close t) w))) = name t
  /\ fst (fst (run os (Close t) w)) = answer os (syscall_Close (fd t)) w
  /\ trace os (Close t) w = [Ev (syscall_Close (fd t))].
Proof.
  unfold answer, Close. simpl. ask_goal. simpl. repeat split.
Qed.

(** ** Line control *)

Section SetSpeedFacts.

Variable setSpeed : attr -> Z -> attr.

(** [SetSpeed] fetches, and stores only when the fetch succeeded; its
    result is the error of the fetch, else the answer of the store on the
    attributes [setSpeed] left. *)
Lemma run_SetSpeed (W : Type) (os : OS W) (t : Term) (baud : Z) (w w1 : W)
      (e1 : option error) (a1 : attr) :
  os _ (termios_Tcgetattr (Go.uintptr (fd t)) attr_zero) w = ((e1, a1), w1) ->
  fst (run os (SetSpeed setSpeed t baud) w)
  = match e1 with
    | Some e => Some e
    | None => answer os (termios_Tcsetattr (Go.uintptr (fd t))
                           termios.TCSANOW (setSpeed a1 baud)) w1
    end.
Proof.
  intros Hos. unfold answer, SetSpeed. simpl. rewrite Hos.
  destruct e1 as [e |]; simpl; [reflexivity |].
  ask_goal. reflexivity.
Qed.

End SetSpeedFacts.




(** ** The context errors carry *)

(** C4, as worded, fails: on a descriptor that is not open every operation
    fails with [EBADF]; [Close], [SetSpeed], [Flush], [SendBreak], [Status]
    and [SetStatus] return the bare error number, with no operation name and
    no path, and a short [Write] returns the bare short-write sentinel. *)
Lemma bare_errors_counterexample :
  let ebadf := Errno syscall.EBADF in
  fst (fst (run os_badfd (Close tty_closed) 0%nat)) = Some ebadf
  /\ fst (run os_badfd (SetSpeed setSpeed_fields tty_closed 9600) 0%nat)
     = Some ebadf
  /\ fst (run os_badfd (Flush tty_closed) 0%nat) = Some ebadf
  /\ fst (run os_badfd (SendBreak tty_closed) 0%nat) = Some ebadf
  /\ snd (fst (run os_badfd (Term_Status tty_closed) 0%nat)) = Some ebadf
  /\ fst (run os_badfd (SetStatus tty_closed 2) 0%nat) = Some ebadf
  /\ snd (fst (run os_badfd (Write tty_closed hello) 0%nat))
     = Some io_ErrShortWrite
  /\ bare ebadf
  /\ bare io_ErrShortWrite
  /\ ~ every_error_carries_context.
Proof.
  cbv zeta. repeat (split; [first [reflexivity | intros op path cause; discriminate] |]).
  intros Hclaim.
  destruct (Hclaim nat os_badfd tty_closed 0%nat (Errno syscall.EBADF))
    as [Hclose _].
  destruct (Hclose eq_refl) as [cause Hc]. discriminate Hc.
Qed.

(** C4 (amended): an error of [Open], and an error of [Read] or [Write]
    other than the end-of-stream and short-write sentinels, carries the
    operation name (["open"], ["read"], ["write"]), the path and the error
    of the operating system.  [Close], [SetSpeed], [Flush], [SendBreak],
    [Status] and [SetStatus] return the error of the call they make
    unchanged: they add no operation name and no path. *)
Theorem error_context (W : Type) (os : OS W) (t : Term) (w : W) :
  (forall (path : string) (err : error),
     snd (fst (run os (Open path) w)) = Some err ->
     exists cause,
       snd (answer os (syscall_Open path
              (Z.lor (Z.lor syscall.O_NOCTTY syscall.O_CLOEXEC) syscall.O_RDWR)
              438) w) = Some cause
       /\ carries err "open" path cause)
  /\ (forall (b : list byte) (err : error),
        snd (fst (fst (run os (Read t b) w))) = Some err ->
        err = io_EOF
        \/ exists cause,
             snd (fst (answer os (syscall_Read (fd t) b) w)) = Some cause
             /\ carries err "read" (name t) cause)
  /\ (forall (b : list byte) (err : error),
        snd (fst (run os (Write t b) w)) = Some err ->
        err = io_ErrShortWrite
        \/ exists cause,
             snd (answer os (syscall_Write (fd t) b) w) = Some cause
             /\ carries err "write" (name t) cause)
  /\ fst (fst (run os (Close t) w)) = answer os (syscall_Close (fd t)) w
  /\ (forall (setSpeed : attr -> Z -> attr) (baud : Z),
        let fetch := os _ (termios_Tcgetattr (Go.uintptr (fd t)) attr_zero) w in
        fst (run os (SetSpeed setSpeed t baud) w)
        = match fst (fst fetch) with
          | Some e => Some e
          | None => answer os (termios_Tcsetattr (Go.uintptr (fd t))
                                 termios.TCSANOW
                                 (setSpeed (snd (fst fetch)) baud))
                           (snd fetch)
          end)
  /\ fst (run os (Flush t) w)
     = answer os (termios_Tcflush (Go.uintptr (fd t)) termios.TCIOFLUSH) w
  /\ fst (run os (SendBreak t) w)
     = answer os (termios_Tcsendbreak (Go.uintptr (fd t)) 0) w
  /\ snd (fst (run os (Term_Status t) w))
     = fst (answer os (termios_Tiocmget (Go.uintptr (fd t)) 0) w)
  /\ (forall status : Status,
        fst (run os (SetStatus t status) w)
        = answer os (termios_Tiocmset (Go.uintptr (fd t)) status) w).
Proof.
  repeat match goal with |- _ /\ _ => split end.
  - intros path err. unfold answer, Open. simpl. ask_goal.
    destruct r as [fd' [e |]]; simpl; [| discriminate].
    intros [= <-]. exists e. split; reflexivity.
  - intros b err.
    destruct (answer os (syscall_Read (fd t) b) w) as [[n e] b'] eqn:Hos.
    rewrite (run_Read _ _ _ _ _ _ _ _ Hos).
    destruct ((Z.max 0 n =? 0) && (Go.len b >? 0) && is_nil e); simpl.
    + intros [= <-]. left. reflexivity.
    + destruct e as [e |]; simpl; [| discriminate].
      intros [= <-]. right. exists e. split; reflexivity.
  - intros b err.
    destruct (answer os (syscall_Write (fd t) b) w) as [n e] eqn:Hos.
    rewrite (run_Write _ _ _ _ _ _ _ Hos).
    destruct (Z.max 0 n =? Go.len b); simpl.
    + destruct e as [e |]; simpl; [| discriminate].
      intros [= <-]. right. exists e. split; reflexivity.
    + intros [= <-]. left. reflexivity.
  - unfold answer, Close. simpl. ask_goal. reflexivity.
  - intros setSpeed baud. cbv zeta.
    destruct (os _ (termios_Tcgetattr (Go.uintptr (fd t)) attr_zero) w)
      as [[e1 a1] w1] eqn:Hos.
    apply (run_SetSpeed setSpeed _ _ _ _ _ _ _ _ Hos).
  - unfold answer, Flush. simpl. ask_goal. reflexivity.
  - unfold answer, SendBreak. simpl. ask_goal. reflexivity.
  - unfold answer, Term_Status. simpl. ask_goal.
    destruct r as [[e |] s]; reflexivity.
  - intros status. unfold answer, SetStatus. simpl. ask_goal. reflexivity.
Qed.

(** ** Status bits *)

(** C5: for every status value, [DTR] after [SetDTR(true)] is true and
    [DTR] after [SetDTR(false)] is false; [SetDTR] leaves every bit other
    than the DTR bit (bit 1) as it was; in particular unrelated bits set
    beforehand are still set afterwards. *)
Theorem SetDTR_DTR (s : Status) :
  DTR (SetDTR s true) = true
  /\ DTR (SetDTR s false) = false
  /\ (forall (v : bool) (i : Z),
        i <> 1 -> Z.testbit (SetDTR s v) i = Z.testbit s i)
  /\ (forall (v : bool) (u : Z),
        Z.land u syscall.TIOCM_DTR = 0 ->
        Z.land (SetDTR (Z.lor s u) v) u = u).
Proof.
  repeat match goal with |- _ /\ _ => split end.
  - rewrite DTR_testbit, SetDTR_testbit. reflexivity.
  - rewrite DTR_testbit, SetDTR_testbit. reflexivity.
  - intros v i Hi. rewrite SetDTR_testbit.
    destruct (Z.eqb_spec i 1); [contradiction | reflexivity].
  - intros v u Hu. apply Z.bits_inj'. intros i Hi.
    rewrite Z.land_spec, SetDTR_testbit, Z.lor_spec.
    destruct (Z.eqb_spec i 1) as [-> | Hne].
    + assert (Hu1 : Z.testbit (Z.land u syscall.TIOCM_DTR) 1 = false)
        by (rewrite Hu; apply Z.bits_0).
      rewrite Z.land_spec, TIOCM_DTR_bits, andb_true_r in Hu1.
      rewrite Hu1. apply andb_false_r.
    + destruct (Z.testbit s i), (Z.testbit u i); reflexivity.
Qed.

(** C10: [SetDTR] is idempotent. *)
Theorem SetDTR_idempotent (s : Status) (v : bool) :
  SetDTR (SetDTR s v) v = SetDTR s v.
Proof.
  apply Z.bits_inj'. intros i _.
  rewrite !SetDTR_testbit.
  destruct (i =? 1); reflexivity.
Qed.

(** A status at the top of the range of [int] stays there. *)
Lemma SetDTR_in_int_witness :
  Go.in_int (SetDTR (2 ^ 63 - 1) false) /\ Go.in_int (SetDTR (- 2 ^ 63) true).
Proof.
  split.
  - apply (SetDTR_in_int (2 ^ 63 - 1) false). unfold Go.in_int. lia.
  - apply (SetDTR_in_int (- 2 ^ 63) true). unfold Go.in_int. lia.
Defined.

(** * Further properties of the operations *)

(** ** Write: success and surfaced errors *)

(** X1: [Write] returns no error exactly when the count of the operating
    system, a negative count taken as zero, equals [len(b)] and the operating
    system reported no error; the count [Write] then returns is [len(b)]. *)
Theorem Write_success_iff (W : Type) (os : OS W) (t : Term) (b : list byte)
        (w : W) (n : Z) (e : option error) :
  answer os (syscall_Write (fd t) b) w = (n, e) ->
  (snd (fst (run os (Write t b) w)) = None
   <-> Z.max 0 n = Go.len b /\ e = None)
  /\ (snd (fst (run os (Write t b) w)) = None ->
      fst (fst (run os (Write t b) w)) = Go.len b).
Proof.
  intros Hos. rewrite (run_Write _ _ _ _ _ _ _ Hos).
  destruct (Z.eqb_spec (Z.max 0 n) (Go.len b)) as [Heq | Hne];
    destruct e as [e |]; simpl; repeat split;
    try discriminate; try tauto; try (intros [? ?]; congruence).
Qed.

Lemma Write_success_iff_witness :
  snd (fst (run os_healthy (Write tty hello) 0%nat)) = None.
Proof.
  apply (proj1 (Write_success_iff nat os_healthy tty hello 0%nat 5 None
                  eq_refl)).
  split; reflexivity.
Defined.

(** X2: [Write] returns the error [err] wrapped with the operation
    ["write"] and the path exactly when the operating system reported [err]
    and its count, a negative count taken as zero, equals [len(b)]; the
    count returned with it is [len(b)]. *)
Theorem Write_os_error_iff (W : Type) (os : OS W) (t : Term) (b : list byte)
        (w : W) (n : Z) (e : option error) (err : error) :
  answer os (syscall_Write (fd t) b) w = (n, e) ->
  (snd (fst (run os (Write t b) w)) = Some (PathError "write" (name t) err)
   <-> Z.max 0 n = Go.len b /\ e = Some err)
  /\ (snd (fst (run os (Write t b) w)) = Some (PathError "write" (name t) err)
      -> fst (fst (run os (Write t b) w)) = Go.len b).
Proof.
  intros Hos. rewrite (run_Write _ _ _ _ _ _ _ Hos).
  destruct (Z.eqb_spec (Z.max 0 n) (Go.len b)) as [Heq | Hne];
    destruct e as [e |]; simpl; repeat split;
    try discriminate; try tauto; try congruence;
    try (intros [? ?]; congruence).
Qed.

Lemma Write_os_error_iff_witness :
  snd (fst (run os_late_error (Write tty hello) 0%nat))
  = Some (PathError "write" ttyS0 (Errno syscall.EIO)).
Proof.
  apply (proj1 (Write_os_error_iff nat os_late_error tty hello 0%nat 5
                  (Some (Errno syscall.EIO)) (Errno syscall.EIO) eq_refl)).
  split; reflexivity.
Defined.

(** X6: [Write] of an empty buffer, when the operating system's count is
    not positive, returns count zero and the operating system's error
    wrapped with ["write"] and the path (no error when there was none): it
    never reports a short write. *)
Theorem Write_empty_buffer (W : Type) (os : OS W) (t : Term) (w : W)
        (n : Z) (e : option error) :
  answer os (syscall_Write (fd t) []) w = (n, e) ->
  n <= 0 ->
  fst (run os (Write t []) w)
  = (0, option_map (PathError "write" (name t)) e).
Proof.
  intros Hos Hn. rewrite (run_Write _ _ _ _ _ _ _ Hos).
  rewrite Z.max_l by lia. reflexivity.
Qed.

Lemma Write_empty_buffer_witness :
  fst (run os_at_eof (Write tty []) 0%nat) = (0, None).
Proof.
  apply (Write_empty_buffer nat os_at_eof tty 0%nat 0 None eq_refl).
  lia.
Defined.

(** ** Read: success and surfaced errors *)

(** X3: [Read] returns no error exactly when the operating system reported
    none and either its count is positive or the buffer is empty; so with a
    buffer that is not empty, no error means that at least one byte was
    read, and the count returned is the operating system's. *)
Theorem Read_success_iff (W : Type) (os : OS W) (t : Term) (b : list byte)
        (w : W) (n : Z) (e : option error) (b' : list byte) :
  answer os (syscall_Read (fd t) b) w = (n, e, b') ->
  (snd (fst (fst (run os (Read t b) w))) = None
   <-> e = None /\ (0 < n \/ b = []))
  /\ (snd (fst (fst (run os (Read t b) w))) = None -> b <> [] ->
      0 < fst (fst (fst (run os (Read t b) w)))
      /\ fst (fst (fst (run os (Read t b) w))) = n).
Proof.
  intros Hos. rewrite (run_Read _ _ _ _ _ _ _ _ Hos).
  assert (Hlen : Go.len b = 0 <-> b = []).
  { unfold Go.len. destruct b; simpl; split; (congruence || lia). }
  assert (Hlen0 : 0 <= Go.len b) by (unfold Go.len; lia).
  destruct e as [e |].
  - rewrite andb_false_r. simpl. split.
    + split; [discriminate | intros [He _]; discriminate He].
    + discriminate.
  - rewrite andb_true_r.
    destruct (Z.eqb_spec (Z.max 0 n) 0) as [Hn | Hn];
      destruct (Z.gtb_spec (Go.len b) 0) as [Hl | Hl]; simpl.
    + split; [split; [discriminate |] | discriminate].
      intros [_ [Hpos | Hnil]]; [lia | apply Hlen in Hnil; lia].
    + split.
      * split; [intros _ | reflexivity].
        split; [reflexivity | right; apply Hlen; lia].
      * intros _ Hb. exfalso. apply Hb. apply Hlen. lia.
    + split.
      * split; [intros _ | reflexivity].
        split; [reflexivity | left; lia].
      * intros _ _. lia.
    + split.
      * split; [intros _ | reflexivity].
        split; [reflexivity | left; lia].
      * intros _ _. lia.
Qed.

Lemma Read_success_iff_witness :
  snd (fst (fst (run os_healthy (Read tty hello) 0%nat))) = None.
Proof.
  apply (proj1 (Read_success_iff nat os_healthy tty hello 0%nat 5 None hello
                  eq_refl)).
  split; [reflexivity | left; lia].
Defined.

(** X4: whenever the operating system's read reports an error, whatever
    its count, [Read] returns that error wrapped with the operation
    ["read"] and the path, together with the count (a negative count taken
    as zero) and never the end of the stream. *)
Theorem Read_os_error_wrapped (W : Type) (os : OS W) (t : Term)
        (b : list byte) (w : W) (n : Z) (err : error) (b' : list byte) :
  answer os (syscall_Read (fd t) b) w = (n, Some err, b') ->
  fst (run os (Read t b) w)
  = ((Z.max 0 n, Some (PathError "read" (name t) err)), b').
Proof.
  intros Hos. rewrite (run_Read _ _ _ _ _ _ _ _ Hos).
  rewrite andb_false_r. reflexivity.
Qed.

(** A read on a descriptor that is not open. *)
Lemma Read_os_error_wrapped_witness :
  fst (run os_badfd (Read tty_closed hello) 0%nat)
  = ((0, Some (PathError "read" ttyS0 (Errno syscall.EBADF))), hello).
Proof.
  exact (Read_os_error_wrapped nat os_badfd tty_closed hello 0%nat (-1)
           (Errno syscall.EBADF) hello eq_refl).
Defined.

(** X5: [Read] into an empty buffer returns the operating system's count
    (a negative count taken as zero) and its error wrapped with ["read"]
    and the path, or no error when there was none: a count of zero with no
    error is returned as such. *)
Theorem Read_empty_buffer (W : Type) (os : OS W) (t : Term) (w : W)
        (n : Z) (e : option error) (b' : list byte) :
  answer os (syscall_Read (fd t) []) w = (n, e, b') ->
  fst (run os (Read t []) w)
  = ((Z.max 0 n, option_map (PathError "read" (name t)) e), b').
Proof.
  intros Hos. rewrite (run_Read _ _ _ _ _ _ _ _ Hos).
  change (Go.len (@nil byte) >? 0) with false.
  rewrite andb_false_r. reflexivity.
Qed.

Lemma Read_empty_buffer_witness :
  fst (run os_at_eof (Read tty []) 0%nat) = ((0, None), []).
Proof.
  exact (Read_empty_buffer nat os_at_eof tty 0%nat 0 None [] eq_refl).
Defined.

(** X7: the sentinels do not cross, whatever the operating system answers
    (an error value equal to a sentinel included): [Write] never returns
    [io.EOF] and [Read] never returns [io.ErrShortWrite]; neither returns a
    bare error number. *)
Theorem sentinels_do_not_cross (W : Type) (os : OS W) (t : Term)
        (b : list byte) (w : W) :
  snd (fst (run os (Write t b) w)) <> Some io_EOF
  /\ snd (fst (fst (run os (Read t b) w))) <> Some io_ErrShortWrite
  /\ (forall code : Z,
        snd (fst (run os (Write t b) w)) <> Some (Errno code)
        /\ snd (fst (fst (run os (Read t b) w))) <> Some (Errno code)).
Proof.
  destruct (answer os (syscall_Write (fd t) b) w) as [n e] eqn:Hw.
  destruct (answer os (syscall_Read (fd t) b) w) as [[n' e'] b'] eqn:Hr.
  rewrite (run_Write _ _ _ _ _ _ _ Hw), (run_Read _ _ _ _ _ _ _ _ Hr).
  destruct (Z.max 0 n =? Go.len b);
    destruct ((Z.max 0 n' =? 0) && (Go.len b >? 0) && is_nil e');
    destruct e as [e |]; destruct e' as [e' |]; simpl;
    repeat split; discriminate.
Qed.

(** ** Open and the life of a handle *)

(** X8: [Open] returns a handle exactly when it returns no error; the
    handle carries the path it was given and the descriptor the operating
    system returned. *)
Theorem Open_handle_xor_error (W : Type) (os : OS W) (path : string) (w : W) :
  let r := fst (run os (Open path) w) in
  let mode := Z.lor (Z.lor syscall.O_NOCTTY syscall.O_CLOEXEC) syscall.O_RDWR in
  (fst r = None <-> snd r <> None)
  /\ (forall t : Term,
        fst r = Some t ->
        snd r = None
        /\ name t = path
        /\ fd t = fst (answer os (syscall_Open path mode 438) w)).
Proof.
  cbv zeta. unfold answer, Open. simpl. ask_goal.
  destruct r as [fd' [e |]]; simpl; split.
  - split; [discriminate | reflexivity].
  - discriminate.
  - split; [discriminate | intros H; contradiction].
  - intros t [= <-]. repeat split.
Qed.

(** X9: the descriptor [Close] hands to the operating system is the one
    the operating system's open returned: on the handle of a successful
    [Open], [Close] makes one call, the close of that descriptor, and leaves
    the handle with the path and descriptor [-1]. *)
Theorem Open_then_Close (W : Type) (os : OS W) (path : string) (w : W)
        (fd' : Z) :
  answer os (syscall_Open path
               (Z.lor (Z.lor syscall.O_NOCTTY syscall.O_CLOEXEC) syscall.O_RDWR)
               438) w = (fd', None) ->
  exists t : Term,
    fst (run os (Open path) w) = (Some t, None)
    /\ forall w' : W,
         trace os (Close t) w' = [Ev (syscall_Close fd')]
         /\ snd (fst (run os (Close t) w')) = {| name := path; fd := -1 |}.
Proof.
  unfold answer, Open. simpl. ask_goal. simpl. intros ->.
  exists {| name := path; fd := fd' |}. split; [reflexivity |].
  intros w2. unfold Close. simpl. ask_goal. split; reflexivity.
Qed.

Lemma Open_then_Close_witness :
  exists t : Term,
    fst (run os_healthy (Open ttyS0) 0%nat) = (Some t, None)
    /\ forall w' : nat,
         trace os_healthy (Close t) w' = [Ev (syscall_Close 3)]
         /\ snd (fst (run os_healthy (Close t) w'))
            = {| name := ttyS0; fd := -1 |}.
Proof.
  exact (Open_then_Close nat os_healthy ttyS0 0%nat 3 eq_refl).
Defined.

(** X10: after [Close], no operation hands the old descriptor to the
    operating system: on the handle [Close] leaves, [Read], [Write] and a
    second [Close] pass descriptor [-1], and the line-control operations
    pass its image under [uintptr], [2^64 - 1]; each still makes its
    call. *)
Theorem use_after_Close (W : Type) (os : OS W) (t : Term) (w w' : W)
        (b : list byte) (status : Status) (baud : Z)
        (setSpeed : attr -> Z -> attr) :
  let t' := snd (fst (run os (Close t) w)) in
  trace os (Read t' b) w' = [Ev (syscall_Read (-1) b)]
  /\ trace os (Write t' b) w' = [Ev (syscall_Write (-1) b)]
  /\ trace os (Close t') w' = [Ev (syscall_Close (-1))]
  /\ trace os (Flush t') w'
     = [Ev (termios_Tcflush (2 ^ 64 - 1) termios.TCIOFLUSH)]
  /\ trace os (SendBreak t') w' = [Ev (termios_Tcsendbreak (2 ^ 64 - 1) 0)]
  /\ trace os (Term_Status t') w' = [Ev (termios_Tiocmget (2 ^ 64 - 1) 0)]
  /\ trace os (SetStatus t' status) w'
     = [Ev (termios_Tiocmset (2 ^ 64 - 1) status)]
  /\ hd_error (trace os (SetSpeed setSpeed t' baud) w')
     = Some (Ev (termios_Tcgetattr (2 ^ 64 - 1) attr_zero)).
Proof.
  assert (Ht : snd (fst (run os (Close t) w)) = {| name := name t; fd := -1 |}).
  { unfold Close. simpl. ask_goal. reflexivity. }
  cbv zeta. rewrite Ht. clear Ht.
  change (2 ^ 64 - 1) with (Go.uintptr (-1)).
  repeat match goal with |- _ /\ _ => split end.
  - unfold Read. simpl. ask_goal. destruct r as [[n e] b'].
    destruct ((((if n <? 0 then 0 else n) =? 0) && (Go.len b >? 0) && is_nil e));
      [reflexivity | destruct e; reflexivity].
  - unfold Write. simpl. ask_goal. destruct r as [n e].
    destruct (negb ((if n <? 0 then 0 else n) =? Go.len b));
      [reflexivity | destruct e; reflexivity].
  - unfold Close. simpl. ask_goal. reflexivity.
  - unfold Flush. simpl. ask_goal. reflexivity.
  - unfold SendBreak. simpl. ask_goal. reflexivity.
  - unfold Term_Status. simpl. ask_goal. destruct r as [[e |] s]; reflexivity.
  - unfold SetStatus. simpl. ask_goal. reflexivity.
  - unfold SetSpeed. simpl. ask_goal. reflexivity.
Qed.

(** ** Line control: the order of fetch and store *)

(** X11: [SetSpeed] stores nothing when the fetch fails: its only call is
    then the fetch.  When the fetch succeeds it makes exactly two calls, the
    fetch into zeroed attributes and then the store, effective at once
    ([TCSANOW]), of the fetched attributes as [setSpeed] changed them. *)
Theorem SetSpeed_calls (setSpeed : attr -> Z -> attr) (W : Type) (os : OS W)
        (t : Term) (baud : Z) (w w1 : W) (e1 : option error) (a1 : attr) :
  os _ (termios_Tcgetattr (Go.uintptr (fd t)) attr_zero) w = ((e1, a1), w1) ->
  trace os (SetSpeed setSpeed t baud) w
  = match e1 with
    | Some _ => [Ev (termios_Tcgetattr (Go.uintptr (fd t)) attr_zero)]
    | None => [Ev (termios_Tcgetattr (Go.uintptr (fd t)) attr_zero);
               Ev (termios_Tcsetattr (Go.uintptr (fd t)) termios.TCSANOW
                     (setSpeed a1 baud))]
    end.
Proof.
  intros Hos. unfold SetSpeed. simpl. rewrite Hos.
  destruct e1 as [e |]; simpl; [reflexivity |].
  ask_goal. reflexivity.
Qed.

(** The fetch fails on a descriptor that is not open: nothing is stored. *)
Lemma SetSpeed_calls_witness :
  trace os_badfd (SetSpeed setSpeed_fields tty_closed 9600) 0%nat
  = [Ev (termios_Tcgetattr (Go.uintptr (-1)) attr_zero)].
Proof.
  exact (SetSpeed_calls setSpeed_fields nat os_badfd tty_closed 9600 0%nat
           1%nat (Some (Errno syscall.EBADF)) attr_zero eq_refl).
Defined.



(** ** Status: how the accessors compose *)

(** X13: the last [SetDTR] wins: setting DTR to [a] and then to [b] gives
    the status that setting it to [b] alone gives. *)
Theorem SetDTR_last_wins (s : Status) (a b : bool) :
  SetDTR (SetDTR s a) b = SetDTR s b.
Proof.
  apply Z.bits_inj'. intros i _.
  rewrite !SetDTR_testbit.
  destruct (i =? 1); reflexivity.
Qed.

(** X14: [SetDTR(v)] leaves a status unchanged exactly when [DTR] already
    reads [v]; in particular writing back what [DTR] reads changes
    nothing. *)
Theorem SetDTR_unchanged_iff (s : Status) (v : bool) :
  (SetDTR s v = s <-> DTR s = v)
  /\ SetDTR s (DTR s) = s.
Proof.
  assert (Hback : forall v', DTR s = v' -> SetDTR s v' = s).
  { intros v' Hv. apply Z.bits_inj'. intros i _.
    rewrite SetDTR_testbit.
    destruct (Z.eqb_spec i 1) as [-> | _];
      [rewrite <- Hv; apply DTR_testbit | reflexivity]. }
  split; [split |].
  - intros Heq. rewrite <- Heq at 1.
    rewrite DTR_testbit, SetDTR_testbit. reflexivity.
  - apply Hback.
  - apply Hback. reflexivity.
Qed.

(** X15: as a number, the status moves by the weight of the DTR bit or not
    at all: [SetDTR(true)] adds 2 when DTR was clear, [SetDTR(false)]
    subtracts 2 when DTR was set, and otherwise the value stays. *)
Theorem SetDTR_value (s : Status) :
  SetDTR s true = (if DTR s then s else s + 2)
  /\ SetDTR s false = (if DTR s then s - 2 else s).
Proof.
  assert (Hset : forall x, DTR x = false -> SetDTR x true = x + 2).
  { intros x Hx. unfold SetDTR.
    assert (Hland : Z.land x syscall.TIOCM_DTR = 0).
    { apply Z.bits_inj'. intros i _.
      rewrite Z.land_spec, TIOCM_DTR_bits, Z.bits_0.
      destruct (Z.eqb_spec i 1) as [-> | _];
        [rewrite <- DTR_testbit, Hx; reflexivity | apply andb_false_r]. }
    pose proof (Z.add_lor_land x syscall.TIOCM_DTR) as Hadd.
    rewrite Hland in Hadd. unfold syscall.TIOCM_DTR in *. lia. }
  assert (Hkeep : forall v, DTR s = v -> SetDTR s v = s).
  { intros v Hv. apply Z.bits_inj'. intros i _.
    rewrite SetDTR_testbit.
    destruct (Z.eqb_spec i 1) as [-> | _];
      [rewrite <- Hv; apply DTR_testbit | reflexivity]. }
  destruct (DTR s) eqn:Hd; split.
  - apply Hkeep. reflexivity.
  - assert (Hclear : DTR (SetDTR s false) = false)
      by (rewrite DTR_testbit, SetDTR_testbit; reflexivity).
    pose proof (Hset _ Hclear) as Hadd.
    assert (Hround : SetDTR (SetDTR s false) true = s).
    { apply Z.bits_inj'. intros i _. rewrite !SetDTR_testbit.
      destruct (Z.eqb_spec i 1) as [-> | _];
        [rewrite <- DTR_testbit, Hd; reflexivity | reflexivity]. }
    rewrite Hround in Hadd. lia.
  - apply Hset. exact Hd.
  - apply Hkeep. reflexivity.
Qed.

(** ** Read: the count and the buffer *)

(** X17: when the operating system's count does not exceed [len(b)], the
    count [Read] returns lies between zero and [len(b)], also when the
    read failed with a negative count: the bytes read are a prefix of the
    buffer. *)
Theorem Read_count_within_buffer (W : Type) (os : OS W) (t : Term)
        (b : list byte) (w : W) (n : Z) (e : option error) (b' : list byte) :
  answer os (syscall_Read (fd t) b) w = (n, e, b') ->
  n <= Go.len b ->
  0 <= fst (fst (fst (run os (Read t b) w))) <= Go.len b.
Proof.
  intros Hos Hn. rewrite (run_Read _ _ _ _ _ _ _ _ Hos).
  assert (Hlen : 0 <= Go.len b) by (unfold Go.len; lia).
  destruct ((Z.max 0 n =? 0) && (Go.len b >? 0) && is_nil e); simpl; lia.
Qed.

(** A failed read into a five-byte buffer. *)
Lemma Read_count_within_buffer_witness :
  0 <= fst (fst (fst (run os_badfd (Read tty_closed hello) 0%nat)))
  <= Go.len hello.
Proof.
  apply (Read_count_within_buffer nat os_badfd tty_closed hello 0%nat (-1)
           (Some (Errno syscall.EBADF)) hello eq_refl).
  vm_compute. discriminate.
Defined.
